(** * Competitive Intel Slack Notifier: the webhook handler

    A shallow embedding of [src/pipedream_webhook.js] (the [run] method of
    the Pipedream component) and the properties of its specification.

    - JavaScript strings are sequences of UTF-16 code units; [length] and
      [substring] count code units, as [String.prototype.length] and
      [String.prototype.substring] do.
    - The request body and the provider's response are JSON data: a
      primitive, or an object whose fields hold primitives.  Numbers are the
      integer-valued ones (epoch milliseconds, lengths).
    - The handler is effectful: it reads the clock, writes to the console and
      calls [$.send.http].  These are threaded through a state-and-exception
      monad; the clock and the HTTP client are oracles of the [World].
    - What is thrown and caught is an Error object or any other value: a
      rejection of [$.send.http] may be null, undefined or a value without a
      message, and [error.message] is read from it as from any value.
    - Functions of the JavaScript runtime whose result depends on the host
      (locale, time zone, engine wording of a TypeError) are fields of
      [Runtime]. *)

From Stdlib Require Import ZArith NArith Ascii String Lia.
From stdpp Require Import base gmap strings list pretty.

Local Open Scope Z_scope.

(** ** Strings *)

Definition jsstring := list N.

Fixpoint lit (s : string) : jsstring :=
  match s with
  | EmptyString => []
  | String a s' => N_of_ascii a :: lit s'
  end.

Definition LF : jsstring := [10%N].

(** [String.prototype.substring(start, end)] on integer arguments: both are
    clamped to [0, length], and swapped when start exceeds end. *)
Definition substring (s : jsstring) (start end_ : Z) : jsstring :=
  let len := Z.of_nat (length s) in
  let finalStart := Z.min (Z.max start 0) len in
  let finalEnd := Z.min (Z.max end_ 0) len in
  let from := Z.min finalStart finalEnd in
  let to := Z.max finalStart finalEnd in
  take (Z.to_nat (to - from)) (drop (Z.to_nat from) s).

(** ** Values *)

Inductive scalar :=
  | Undefined
  | Null
  | Bool (b : bool)
  | Num (n : Z)
  | Str (s : jsstring).

Inductive jsval :=
  | Prim (p : scalar)
  | Obj (fields : gmap string scalar).

(** ToBoolean. *)
Definition truthy (v : scalar) : bool :=
  match v with
  | Undefined | Null => false
  | Bool b => b
  | Num n => negb (n =? 0)
  | Str s => negb (Nat.eqb (length s) 0)
  end.

(** [obj.key] on an object built from JSON: undefined when the key is
    absent. *)
Definition field (fields : gmap string scalar) (key : string) : scalar :=
  default Undefined (fields !! key).

Inductive js_error :=
  | TypeError (message : jsstring)
  | Error (message : jsstring).

Definition message (e : js_error) : jsstring :=
  match e with
  | TypeError m => m
  | Error m => m
  end.

(** What a [throw] raises and a [catch] binds: an Error object, or a value
    that is no Error object (a promise can be rejected with any value). *)
Inductive thrown :=
  | Exception (e : js_error)
  | Raw (v : jsval).

Coercion Exception : js_error >-> thrown.


(** ** Configuration, runtime and world *)

(** The component's props, read through [this]. *)
Record Props := {
  slack_channel : jsstring;
  max_message_length : Z;
  oauth_access_token : jsstring
}.

Record Runtime := {
  Number_toString : Z -> jsstring;
  (** [JSON.stringify(v)]: a string, or undefined for undefined. *)
  JSON_stringify : scalar -> scalar;
  (** [new Date(v).toLocaleString()]. *)
  Date_toLocaleString : scalar -> jsstring;
  (** [new Date().toLocaleTimeString()] at a clock reading. *)
  Date_toLocaleTimeString : Z -> jsstring;
  (** [new Date().toISOString()] at a clock reading. *)
  Date_toISOString : Z -> jsstring;
  (** Wording of the TypeError raised by destructuring null or undefined. *)
  destructure_message : scalar -> jsstring;
  (** Wording of the TypeError raised by reading a property of null or
      undefined. *)
  read_message : scalar -> string -> jsstring
}.

Record http_request := {
  method : jsstring;
  url : jsstring;
  headers : gmap string scalar;
  data : gmap string scalar
}.

Inductive outcome (A : Type) :=
  | Value (a : A)
  | Thrown (e : thrown).
Arguments Value {A} a.
Arguments Thrown {A} e.

(** The clock and the HTTP client: [Date_now k] is the k-th reading of the
    clock, [send_http k req] what the k-th call of [$.send.http] does. *)
Record World := {
  Date_now : nat -> Z;
  send_http : nat -> http_request -> outcome jsval
}.

Inductive log_arg :=
  | LStr (s : jsstring)
  | LVal (v : scalar)
  | LErr (e : thrown).

Inductive log_line :=
  | console_log (args : list log_arg)
  | console_error (args : list log_arg).

Record state := {
  ticks : nat;
  calls : list http_request;
  console : list log_line
}.

Definition fresh : state := {| ticks := 0; calls := []; console := [] |}.

(** What the handler hands back: the value of [$.respond({status, body})],
    or a plain result object. *)
Inductive completion :=
  | Respond (status : Z) (body : gmap string scalar)
  | Return (result : gmap string scalar).

(** ** The effect monad *)

Definition M (A : Type) : Type := World -> state -> outcome A * state.

Definition ret {A} (a : A) : M A := fun _ s => (Value a, s).

Definition bind {A B} (m : M A) (k : A -> M B) : M B :=
  fun w s =>
    match m w s with
    | (Value a, s') => k a w s'
    | (Thrown e, s') => (Thrown e, s')
    end.

Definition throw {A} (e : thrown) : M A := fun _ s => (Thrown e, s).

Definition try_catch {A} (m : M A) (handler : thrown -> M A) : M A :=
  fun w s =>
    match m w s with
    | (Value a, s') => (Value a, s')
    | (Thrown e, s') => handler e w s'
    end.

Notation "x <- m ;; k" := (bind m (fun x => k))
  (at level 100, m at next level, right associativity).
Notation "m ;;; k" := (bind m (fun _ => k))
  (at level 100, right associativity).

(** [Date.now()], also the reading behind [new Date()]. *)
Definition now : M Z :=
  fun w s =>
    (Value (Date_now w (ticks s)),
     {| ticks := S (ticks s); calls := calls s; console := console s |}).

Definition log (l : log_line) : M unit :=
  fun _ s =>
    (Value tt,
     {| ticks := ticks s; calls := calls s; console := console s ++ [l] |}).

(** [await $.send.http(req)]: the call is recorded, then returns or throws. *)
Definition send (req : http_request) : M jsval :=
  fun w s =>
    (send_http w (length (calls s)) req,
     {| ticks := ticks s; calls := calls s ++ [req]; console := console s |}).

Section Handler.

Context (this : Props) (rt : Runtime).

(** ToString, as a template literal applies it. *)
Definition ToString (v : scalar) : jsstring :=
  match v with
  | Undefined => lit "undefined"
  | Null => lit "null"
  | Bool true => lit "true"
  | Bool false => lit "false"
  | Num n => Number_toString rt n
  | Str s => s
  end.

(** [v.key] for the keys the handler reads (none of them is a property of a
    primitive's prototype). *)
Definition Get (v : jsval) (key : string) : M scalar :=
  match v with
  | Prim Undefined => throw (TypeError (read_message rt Undefined key))
  | Prim Null => throw (TypeError (read_message rt Null key))
  | Prim _ => ret Undefined
  | Obj fields => ret (field fields key)
  end.

(** [error.message] on what a [catch] bound: the message of an Error object,
    the property of any other value. *)
Definition Get_message (error : thrown) : M scalar :=
  match error with
  | Exception e => ret (Str (message e))
  | Raw v => Get v "message"
  end.

(** [const { report, timestamp, source } = requestBody]. *)
Definition destructure (requestBody : jsval) : M (scalar * scalar * scalar) :=
  match requestBody with
  | Prim Undefined => throw (TypeError (destructure_message rt Undefined))
  | Prim Null => throw (TypeError (destructure_message rt Null))
  | Prim _ => ret (Undefined, Undefined, Undefined)
  | Obj fields =>
      ret (field fields "report", field fields "timestamp",
           field fields "source")
  end.

Definition notice : jsstring :=
  LF ++ LF ++ lit "...(truncated - see full report in tool)".

(** Lines 58-61: [report.length] is a number only for a string; for the
    other truthy primitives it is undefined and the comparison is false. *)
Definition slackMessage (report : scalar) : scalar :=
  match report with
  | Str s =>
      if Z.of_nat (length s) >? max_message_length this
      then Str (substring s 0 (max_message_length this - 100) ++ notice)
      else report
  | _ => report
  end.

(** Lines 64-69, the template literal. *)
Definition formattedMessage (report timestamp source : scalar) (elapsed : Z)
  : jsstring :=
  ToString (slackMessage report) ++ LF
  ++ LF
  ++ lit "---" ++ LF
  ++ [0xD83D%N; 0xDCCA%N] ++ lit " **Report Generated**: "
  ++ (if truthy timestamp then Date_toLocaleString rt timestamp
      else lit "Unknown time") ++ LF
  ++ [0xD83D%N; 0xDD27%N] ++ lit " **Source**: "
  ++ (if truthy source then ToString source
      else lit "Competitive Intel Tool") ++ LF
  ++ [0x26A1%N] ++ lit " **Processing Time**: "
  ++ Number_toString rt elapsed ++ lit "ms".

Definition postMessage (payload : gmap string scalar) : http_request :=
  {| method := lit "POST";
     url := lit "https://slack.com/api/chat.postMessage";
     headers :=
       {[ "Authorization" := Str (lit "Bearer " ++ oauth_access_token this);
          "Content-Type" := Str (lit "application/json") ]};
     data := payload |}.

Definition report_request (text : jsstring) : http_request :=
  postMessage
    {[ "channel" := Str (slack_channel this);
       "text" := Str text;
       "username" := Str (lit "Competitive Intel Bot");
       "icon_emoji" := Str (lit ":dart:");
       "unfurl_links" := Bool false;
       "unfurl_media" := Bool false ]}.

(** The text of line 121 when the error is an Error object. *)
Definition error_text (error : js_error) (time : jsstring) : jsstring :=
  [0xD83D%N; 0xDEA8%N] ++ lit " **Competitive Intel Webhook Error**"
  ++ LF ++ LF ++ lit "**Error**: " ++ message error ++ LF
  ++ lit "**Time**: " ++ time.

(** Line 121, the template literal, on the string form of
    [error.message]. *)
Definition notification_text (message time : jsstring) : jsstring :=
  [0xD83D%N; 0xDEA8%N] ++ lit " **Competitive Intel Webhook Error**"
  ++ LF ++ LF ++ lit "**Error**: " ++ message ++ LF
  ++ lit "**Time**: " ++ time.

Definition error_request (text : jsstring) : http_request :=
  postMessage
    {[ "channel" := Str (slack_channel this);
       "text" := Str text;
       "username" := Str (lit "Competitive Intel Bot");
       "icon_emoji" := Str (lit ":warning:") ]}.

(** Lines 40-106, the body of the outer [try]. *)
Definition attempt (requestBody : jsval) (startTime : Z) : M completion :=
  log (console_log
         [LStr ([0xD83D%N; 0xDCE8%N]
                ++ lit " Received competitive intelligence report...")]) ;;;
  fields <- destructure requestBody ;;
  let '(report, timestamp, source) := fields in
  if negb (truthy report) then
    log (console_log [LStr ([0x274C%N] ++ lit " No report data received")]) ;;;
    ret (Respond 400 {[ "error" := Str (lit "No report data provided") ]})
  else
    log (console_log
           [LStr ([0xD83D%N; 0xDCCA%N] ++ lit " Processing report from "
                  ++ (if truthy source then ToString source else lit "unknown")
                  ++ lit " at " ++ ToString timestamp)]) ;;;
    t <- now ;;
    let text := formattedMessage report timestamp source (t - startTime) in
    log (console_log
           [LStr ([0xD83D%N; 0xDCF1%N] ++ lit " Sending to Slack channel: "
                  ++ slack_channel this)]) ;;;
    slackResponse <- send (report_request text) ;;
    ok <- Get slackResponse "ok" ;;
    if negb (truthy ok) then
      err <- Get slackResponse "error" ;;
      log (console_log
             [LStr ([0x274C%N] ++ lit " Slack API error:"); LVal err]) ;;;
      throw (Error (lit "Slack error: " ++ ToString (JSON_stringify rt err)))
    else
      log (console_log
             [LStr ([0x2705%N] ++ lit " Report sent to Slack successfully!")]) ;;;
      iso <- now ;;
      t' <- now ;;
      ts <- Get slackResponse "ts" ;;
      ret (Return
             {[ "success" := Bool true;
                "timestamp" := Str (Date_toISOString rt iso);
                "slack_channel" := Str (slack_channel this);
                "message_length" := Num (Z.of_nat (length text));
                "processing_time_ms" := Num (t' - startTime);
                "slack_message_ts" := ts ]}).

(** Lines 111-128, the inner [try]/[catch]: the error notification. *)
Definition notify (error : thrown) : M unit :=
  try_catch
    (message <- Get_message error ;;
     time <- now ;;
     send (error_request
             (notification_text (ToString message)
                (Date_toLocaleTimeString rt time))) ;;;
     ret tt)
    (fun slackError =>
       log (console_error
              [LStr (lit "Failed to send error to Slack:"); LErr slackError])).

(** Lines 107-138, the outer [catch]. *)
Definition recover (error : thrown) : M completion :=
  log (console_error
         [LStr ([0x274C%N] ++ lit " Webhook processing failed:");
          LErr error]) ;;;
  notify error ;;;
  message <- Get_message error ;;
  iso <- now ;;
  ret (Respond 500
         {[ "success" := Bool false;
            "error" := message;
            "timestamp" := Str (Date_toISOString rt iso) ]}).

(** [async run({ steps, $ })], on the trigger event's body. *)
Definition run (requestBody : jsval) : M completion :=
  startTime <- now ;;
  try_catch (attempt requestBody startTime) recover.

End Handler.

(** ** Observations on a run *)

Definition response (r : outcome completion * state) : outcome completion :=
  fst r.

Definition outbound (r : outcome completion * state) : list http_request :=
  calls (snd r).

Definition text_of (req : http_request) : scalar := field (data req) "text".

Definition channel_of (req : http_request) : scalar :=
  field (data req) "channel".

(** The text of the first outbound call. *)
Definition outbound_text (r : outcome completion * state) : option scalar :=
  text_of <$> head (outbound r).


(** The footer of the template literal, with its two variable labels. *)
Definition footer_with (rt : Runtime) (time label : jsstring) (elapsed : Z)
  : jsstring :=
  LF ++ LF ++ lit "---" ++ LF
  ++ [0xD83D%N; 0xDCCA%N] ++ lit " **Report Generated**: " ++ time ++ LF
  ++ [0xD83D%N; 0xDD27%N] ++ lit " **Source**: " ++ label ++ LF
  ++ [0x26A1%N] ++ lit " **Processing Time**: "
  ++ Number_toString rt elapsed ++ lit "ms".

(** The two labels of the template, lines 67 and 68. *)
Definition time_label (rt : Runtime) (timestamp : scalar) : jsstring :=
  if truthy timestamp then Date_toLocaleString rt timestamp
  else lit "Unknown time".

Definition source_label (rt : Runtime) (source : scalar) : jsstring :=
  if truthy source then ToString rt source else lit "Competitive Intel Tool".

(** The footer of a run on a body with these fields: the elapsed time is
    the second reading of the clock minus the first. *)
Definition footer (rt : Runtime) (fields : gmap string scalar) (w : World)
  : jsstring :=
  footer_with rt (time_label rt (field fields "timestamp"))
    (source_label rt (field fields "source"))
    (Date_now w 1 - Date_now w 0).

(** The request of the primary call for a body with these fields. *)
Definition primary (this : Props) (rt : Runtime) (w : World)
    (fields : gmap string scalar) : http_request :=
  report_request this
    (formattedMessage this rt (field fields "report")
       (field fields "timestamp") (field fields "source")
       (Date_now w 1 - Date_now w 0)).

(** The request of the error notification. *)
Definition notification (this : Props) (rt : Runtime) (error : js_error)
    (time : Z) : http_request :=
  error_request this (error_text error (Date_toLocaleTimeString rt time)).

#[global] Instance scalar_eq_dec : EqDecision scalar.
Proof. solve_decision. Defined.

Definition is_notification (req : http_request) : bool :=
  bool_decide (field (data req) "icon_emoji" = Str (lit ":warning:")).

(** The world [w], except that every error notification meets [o]. *)
Definition with_notify (w : World) (o : outcome jsval) : World :=
  {| Date_now := Date_now w;
     send_http := fun k req =>
       if is_notification req then o else send_http w k req |}.

(** Two worlds with the same clock and the same answer to every request
    that is not an error notification. *)
Definition same_but_notification (w w' : World) : Prop :=
  (forall k, Date_now w k = Date_now w' k)
  /\ (forall k req, is_notification req = false ->
                    send_http w k req = send_http w' k req).

(** ** The labels as the specification words them

    The footer "shows the time formatted from the timestamp when it is
    present, the marker when it is absent", and likewise the source: these
    two follow the specification, to be compared with [time_label] and
    [source_label], which follow the code. *)

Definition spec_time_label (rt : Runtime) (timestamp : option scalar)
  : jsstring :=
  match timestamp with
  | Some v => Date_toLocaleString rt v
  | None => lit "Unknown time"
  end.

Definition spec_source_label (rt : Runtime) (source : option scalar)
  : jsstring :=
  match source with
  | Some v => ToString rt v
  | None => lit "Competitive Intel Tool"
  end.

(** ** A reference host

    A runtime and three worlds on which the handler is evaluated: an en-US
    host on UTC.  Integers print in decimal (as JavaScript prints them below
    10^21), dates are formatted for years 0 to 9999, and no date string is
    parsed. *)

Definition decimal (n : Z) : jsstring := lit (pretty n).

Definition padded (width : nat) (n : Z) : jsstring :=
  let ds := decimal n in
  replicate (width - length ds) 48%N ++ ds.

(** Year, month and day of a day count from 1970-01-01. *)
Definition civil (days : Z) : Z * Z * Z :=
  let z := days + 719468 in
  let era := z / 146097 in
  let doe := z - era * 146097 in
  let yoe := (doe - doe / 1460 + doe / 36524 - doe / 146096) / 365 in
  let doy := doe - (365 * yoe + yoe / 4 - yoe / 100) in
  let mp := (5 * doy + 2) / 153 in
  let d := doy - (153 * mp + 2) / 5 + 1 in
  let m := if mp <? 10 then mp + 3 else mp - 9 in
  let y := yoe + era * 400 + (if m <=? 2 then 1 else 0) in
  (y, m, d).

Definition clock_time (ms : Z) : jsstring :=
  let secs := (ms / 1000) mod 86400 in
  let h := secs / 3600 in
  let h12 := if h mod 12 =? 0 then 12 else h mod 12 in
  decimal h12 ++ lit ":" ++ padded 2 ((secs / 60) mod 60) ++ lit ":"
  ++ padded 2 (secs mod 60) ++ (if h <? 12 then lit " AM" else lit " PM").

Definition locale_date (ms : Z) : jsstring :=
  let '(y, m, d) := civil (ms / 86400000) in
  decimal m ++ lit "/" ++ decimal d ++ lit "/" ++ decimal y ++ lit ", "
  ++ clock_time ms.

Definition iso_date (ms : Z) : jsstring :=
  let '(y, m, d) := civil (ms / 86400000) in
  let secs := (ms / 1000) mod 86400 in
  padded 4 y ++ lit "-" ++ padded 2 m ++ lit "-" ++ padded 2 d ++ lit "T"
  ++ padded 2 (secs / 3600) ++ lit ":" ++ padded 2 ((secs / 60) mod 60)
  ++ lit ":" ++ padded 2 (secs mod 60) ++ lit "." ++ padded 3 (ms mod 1000)
  ++ lit "Z".

Definition hex_digit (n : N) : N :=
  if (n <? 10)%N then (48 + n)%N else (87 + n)%N.

(** A backslash followed by the given characters. *)
Definition escaped (s : jsstring) : jsstring := 92%N :: s.

Definition unicode_escape (c : N) : jsstring :=
  escaped (lit "u") ++ [hex_digit (c / 4096); hex_digit ((c / 256) mod 16);
                        hex_digit ((c / 16) mod 16); hex_digit (c mod 16)].

Definition is_high (c : N) : bool := (0xD800 <=? c)%N && (c <=? 0xDBFF)%N.
Definition is_low (c : N) : bool := (0xDC00 <=? c)%N && (c <=? 0xDFFF)%N.

(** The body of a JSON string literal. *)
Fixpoint quote_units (s : jsstring) : jsstring :=
  match s with
  | [] => []
  | c :: s' =>
      if (c =? 34)%N then escaped [34%N] ++ quote_units s'
      else if (c =? 92)%N then escaped [92%N] ++ quote_units s'
      else if (c =? 8)%N then escaped (lit "b") ++ quote_units s'
      else if (c =? 9)%N then escaped (lit "t") ++ quote_units s'
      else if (c =? 10)%N then escaped (lit "n") ++ quote_units s'
      else if (c =? 12)%N then escaped (lit "f") ++ quote_units s'
      else if (c =? 13)%N then escaped (lit "r") ++ quote_units s'
      else if (c <? 32)%N then unicode_escape c ++ quote_units s'
      else if is_high c then
        match s' with
        | c' :: s'' =>
            if is_low c' then c :: c' :: quote_units s''
            else unicode_escape c ++ quote_units s'
        | [] => unicode_escape c
        end
      else if is_low c then unicode_escape c ++ quote_units s'
      else c :: quote_units s'
  end.

Definition ToString_word (v : scalar) : jsstring :=
  match v with
  | Null => lit "null"
  | _ => lit "undefined"
  end.

Definition reference_runtime : Runtime :=
  {| Number_toString := decimal;
     JSON_stringify := fun v =>
       match v with
       | Undefined => Undefined
       | Null => Str (lit "null")
       | Bool true => Str (lit "true")
       | Bool false => Str (lit "false")
       | Num n => Str (decimal n)
       | Str s => Str ([34%N] ++ quote_units s ++ [34%N])
       end;
     Date_toLocaleString := fun v =>
       match v with
       | Num n => locale_date n
       | Bool true => locale_date 1
       | Bool false | Null => locale_date 0
       | Undefined | Str _ => lit "Invalid Date"
       end;
     Date_toLocaleTimeString := clock_time;
     Date_toISOString := iso_date;
     destructure_message := fun v =>
       lit "Cannot destructure property 'report' of 'requestBody' as it is "
       ++ ToString_word v ++ lit ".";
     read_message := fun v key =>
       lit "Cannot read properties of " ++ ToString_word v
       ++ lit " (reading '" ++ lit key ++ lit "')" |}.

Definition default_props : Props :=
  {| slack_channel := lit "#general";
     max_message_length := 3000;
     oauth_access_token := lit "xoxb-token" |}.

Definition reference_clock (k : nat) : Z := 1700000000000 + 12 * Z.of_nat k.

(** The provider accepts every message. *)
Definition world_ok : World :=
  {| Date_now := reference_clock;
     send_http := fun _ _ =>
       Value (Obj {[ "ok" := Bool true;
                     "ts" := Str (lit "1700000000.000100") ]}) |}.

(** The provider refuses every message. *)
Definition world_refused : World :=
  {| Date_now := reference_clock;
     send_http := fun _ _ =>
       Value (Obj {[ "ok" := Bool false;
                     "error" := Str (lit "invalid_auth") ]}) |}.

(** Every call fails in transport. *)
Definition world_down : World :=
  {| Date_now := reference_clock;
     send_http := fun _ _ => Thrown (Error (lit "connect ETIMEDOUT")) |}.

(** The client hands back no response (a fire-and-forget client resolves
    to undefined). *)
Definition world_silent : World :=
  {| Date_now := reference_clock;
     send_http := fun _ _ => Value (Prim Undefined) |}.

(** The provider answers with an empty object. *)
Definition world_bare : World :=
  {| Date_now := reference_clock;
     send_http := fun _ _ => Value (Obj ∅) |}.

(** The report call is rejected with undefined. *)
Definition world_rejects_nothing : World :=
  {| Date_now := reference_clock;
     send_http := fun _ _ => Thrown (Raw (Prim Undefined)) |}.

(** Every call is rejected with a string, a value without a message. *)
Definition world_rejects_text : World :=
  {| Date_now := reference_clock;
     send_http := fun _ _ => Thrown (Raw (Prim (Str (lit "timeout")))) |}.

(** A request without its Authorization header. *)
Definition unauthorized (req : http_request) : http_request :=
  {| method := method req;
     url := url req;
     headers := delete "Authorization" (headers req);
     data := data req |}.

(** The props with another credential. *)
Definition with_token (this : Props) (token : jsstring) : Props :=
  {| slack_channel := slack_channel this;
     max_message_length := max_message_length this;
     oauth_access_token := token |}.

(** Line 127: what the inner catch writes to the console. *)
Definition notify_failure_line (slackError : thrown) : log_line :=
  console_error
    [LStr (lit "Failed to send error to Slack:"); LErr slackError].

(** ** Unfolding the handler *)

Ltac run_step :=
  cbv beta iota zeta delta
    [run attempt recover notify destructure Get Get_message bind ret throw
     try_catch now log send fresh ticks calls console response outbound
     fst snd negb];
  cbn [length app truthy].

(** Case analysis on the path of a run: the truthiness of [report] and of
    [ok], what each outbound call meets, and the values the handler
    inspects. *)
Ltac run_paths w :=
  run_step;
  repeat match goal with
    | |- context [truthy (field ?f "report")] =>
        destruct (truthy (field f "report")) eqn:?; run_step
    | |- context [truthy (field ?f "ok")] =>
        destruct (truthy (field f "ok")) eqn:?; run_step
    | |- context [send_http w ?k ?r] =>
        destruct (send_http w k r) eqn:?; run_step
    | |- context [match ?x with _ => _ end] =>
        is_var x; destruct x; run_step
    end.

Section Steps.

Context (this : Props) (rt : Runtime) (w : World).

Lemma formattedMessage_footer report timestamp source elapsed :
  formattedMessage this rt report timestamp source elapsed
  = ToString rt (slackMessage this report)
    ++ footer_with rt (time_label rt timestamp) (source_label rt source)
         elapsed.
Proof. reflexivity. Qed.

Lemma field_Some fields key v : fields !! key = Some v -> field fields key = v.
Proof. unfold field. intros ->. reflexivity. Qed.

Lemma field_None fields key : fields !! key = None -> field fields key = Undefined.
Proof. unfold field. intros ->. reflexivity. Qed.

(** A body without a truthy report: the validation response, no call. *)
Lemma run_falsy_report fields :
  truthy (field fields "report") = false ->
  response (run this rt (Obj fields) w fresh)
  = Value (Respond 400 {[ "error" := Str (lit "No report data provided") ]})
  /\ outbound (run this rt (Obj fields) w fresh) = [].
Proof.
  intros H. run_step. rewrite H. run_step. split; reflexivity.
Qed.

(** A body that is null or undefined: destructuring throws, the catch
    block notifies and responds. *)
Lemma run_nullish p :
  p = Undefined \/ p = Null ->
  response (run this rt (Prim p) w fresh)
  = Value (Respond 500
             {[ "success" := Bool false;
                "error" := Str (destructure_message rt p);
                "timestamp" := Str (Date_toISOString rt (Date_now w 2)) ]})
  /\ outbound (run this rt (Prim p) w fresh)
     = [notification this rt (TypeError (destructure_message rt p))
          (Date_now w 1)].
Proof.
  intros [-> | ->]; run_step;
    destruct (send_http w 0%nat _); split; reflexivity.
Qed.

(** A truthy report reaches the primary call, which is the first one. *)
Lemma run_valid_head fields :
  truthy (field fields "report") = true ->
  head (outbound (run this rt (Obj fields) w fresh))
  = Some (primary this rt w fields).
Proof.
  intros H. run_step. rewrite H. run_paths w; reflexivity.
Qed.

Lemma run_valid_text fields :
  truthy (field fields "report") = true ->
  outbound_text (run this rt (Obj fields) w fresh)
  = Some (Str (ToString rt (slackMessage this (field fields "report"))
               ++ footer rt fields w)).
Proof.
  intros H. unfold outbound_text. rewrite (run_valid_head fields H).
  reflexivity.
Qed.

(** The provider reports success: the result object, one call. *)
Lemma run_delivered fields rf :
  truthy (field fields "report") = true ->
  send_http w 0%nat (primary this rt w fields) = Value (Obj rf) ->
  truthy (field rf "ok") = true ->
  response (run this rt (Obj fields) w fresh)
  = Value (Return
             {[ "success" := Bool true;
                "timestamp" := Str (Date_toISOString rt (Date_now w 2));
                "slack_channel" := Str (slack_channel this);
                "message_length" :=
                  Num (Z.of_nat (length (ToString rt
                                           (slackMessage this
                                              (field fields "report"))
                                         ++ footer rt fields w)));
                "processing_time_ms" := Num (Date_now w 3 - Date_now w 0);
                "slack_message_ts" := field rf "ts" ]})
  /\ outbound (run this rt (Obj fields) w fresh) = [primary this rt w fields].
Proof.
  intros H Hsend Hok. run_step. rewrite H. run_step.
  fold (primary this rt w fields). rewrite Hsend. run_step. rewrite Hok.
  run_step. split; reflexivity.
Qed.

(** The text of the notification for an Error object. *)
Lemma error_text_notification (e : js_error) (time : jsstring) :
  notification_text (ToString rt (Str (message e))) time = error_text e time.
Proof. reflexivity. Qed.



(** The primary call is rejected with null or undefined: reading
    [error.message] throws in the inner try, where it is caught and logged,
    and again at line 134, where nothing catches it. *)
Lemma run_call_rejects_nullish fields (p : scalar) :
  truthy (field fields "report") = true ->
  send_http w 0%nat (primary this rt w fields) = Thrown (Raw (Prim p)) ->
  p = Undefined \/ p = Null ->
  response (run this rt (Obj fields) w fresh)
  = Thrown (TypeError (read_message rt p "message"))
  /\ outbound (run this rt (Obj fields) w fresh) = [primary this rt w fields]
  /\ last (console (snd (run this rt (Obj fields) w fresh)))
     = Some (notify_failure_line
               (TypeError (read_message rt p "message"))).
Proof.
  intros H Hsend Hp. run_step. rewrite H. run_step.
  fold (primary this rt w fields). rewrite Hsend.
  destruct Hp as [-> | ->]; run_step; repeat split; reflexivity.
Qed.

(** The provider answers without a truthy [ok]: line 93 throws. *)
Lemma run_provider_fails fields rf :
  truthy (field fields "report") = true ->
  send_http w 0%nat (primary this rt w fields) = Value (Obj rf) ->
  truthy (field rf "ok") = false ->
  let e := Error (lit "Slack error: "
                  ++ ToString rt (JSON_stringify rt (field rf "error"))) in
  response (run this rt (Obj fields) w fresh)
  = Value (Respond 500
             {[ "success" := Bool false;
                "error" := Str (message e);
                "timestamp" := Str (Date_toISOString rt (Date_now w 3)) ]})
  /\ outbound (run this rt (Obj fields) w fresh)
     = [primary this rt w fields; notification this rt e (Date_now w 2)].
Proof.
  intros H Hsend Hok e. run_step. rewrite H. run_step.
  fold (primary this rt w fields). rewrite Hsend. run_step. rewrite Hok.
  run_step. destruct (send_http w 1%nat _); split; reflexivity.
Qed.

Lemma is_notification_report text :
  is_notification (report_request this text) = false.
Proof. reflexivity. Qed.

Lemma is_notification_error text :
  is_notification (error_request this text) = true.
Proof. reflexivity. Qed.

(** Every status-500 response has the three fields of the catch block. *)
Lemma run_500_shape body b :
  response (run this rt body w fresh) = Value (Respond 500 b) ->
  exists msg iso,
    b = {[ "success" := Bool false; "error" := msg;
           "timestamp" := Str iso ]}.
Proof.
  destruct body as [p | fields]; [destruct p |]; run_paths w;
    intros [= <-]; eexists _, _; reflexivity.
Qed.

End Steps.

(** What the error notification meets does not reach the response. *)
Lemma run_same_response this rt (w w' : World) body :
  same_but_notification w w' ->
  response (run this rt body w fresh) = response (run this rt body w' fresh).
Proof.
  intros [Hc Hs].
  destruct body as [p | fields]; [destruct p |]; run_step;
    try reflexivity.
  1, 2: destruct (send_http w 0%nat _), (send_http w' 0%nat _);
    rewrite <- ?Hc; reflexivity.
  destruct (truthy (field fields "report")); run_step; [| reflexivity].
  rewrite <- !Hc.
  rewrite <- (Hs 0%nat _ (is_notification_report this _)).
  destruct (send_http w 0%nat _) as [[p | rf] | [e | [p | o]]];
    [destruct p | | | destruct p |]; run_step; try reflexivity.
  all: try (destruct (truthy (field rf "ok")); run_step;
            [rewrite <- ?Hc; reflexivity |]).
  all: destruct (send_http w 1%nat _), (send_http w' 1%nat _);
    rewrite <- ?Hc; reflexivity.
Qed.

(** ** Truncation *)

Lemma substring_take (s : jsstring) (n : Z) :
  substring s 0 n = take (Z.to_nat n) s.
Proof.
  unfold substring.
  replace (Z.min (Z.max 0 0) (Z.of_nat (length s))) with 0 by lia.
  set (e := Z.min (Z.max n 0) (Z.of_nat (length s))).
  replace (Z.min 0 e) with 0 by lia.
  replace (Z.max 0 e - 0) with e by lia.
  change (Z.to_nat 0) with 0%nat. rewrite drop_0.
  destruct (Z_le_gt_dec n (Z.of_nat (length s))) as [Hle | Hgt].
  - f_equal. lia.
  - rewrite !take_ge by lia. reflexivity.
Qed.

Lemma truthy_Str (s : jsstring) : s <> [] -> truthy (Str s) = true.
Proof. destruct s; [congruence | reflexivity]. Qed.

Lemma slackMessage_long this (s : jsstring) :
  Z.of_nat (length s) > max_message_length this ->
  slackMessage this (Str s)
  = Str (take (Z.to_nat (max_message_length this - 100)) s ++ notice).
Proof.
  intros H. unfold slackMessage.
  destruct (Z.gtb_spec (Z.of_nat (length s)) (max_message_length this));
    [| lia].
  rewrite substring_take. reflexivity.
Qed.

Lemma slackMessage_short this (s : jsstring) :
  Z.of_nat (length s) <= max_message_length this ->
  slackMessage this (Str s) = Str s.
Proof.
  intros H. unfold slackMessage.
  destruct (Z.gtb_spec (Z.of_nat (length s)) (max_message_length this));
    [lia | reflexivity].
Qed.

Lemma notice_length : length notice = 42%nat.
Proof. reflexivity. Qed.

(** ** The scenarios of the specification, on the reference host *)

Example scenario_empty_object :
  run default_props reference_runtime (Obj ∅) world_ok fresh
  = (Value (Respond 400
              {[ "error" := Str (lit "No report data provided") ]}),
     {| ticks := 1; calls := [];
        console :=
          [console_log
             [LStr ([0xD83D%N; 0xDCE8%N]
                    ++ lit " Received competitive intelligence report...")];
           console_log
             [LStr ([0x274C%N] ++ lit " No report data received")]] |}).
Proof. vm_compute. reflexivity. Qed.

Example scenario_invalid_auth :
  let r := run default_props reference_runtime
             (Obj {[ "report" := Str (lit "Acme cut prices by 10%.") ]})
             world_refused fresh in
  response r
  = Value (Respond 500
             {[ "success" := Bool false;
                "error" := Str (lit "Slack error: " ++ [34%N]
                                ++ lit "invalid_auth" ++ [34%N]);
                "timestamp" := Str (lit "2023-11-14T22:13:20.036Z") ]})
  /\ length (outbound r) = 2%nat
  /\ ticks (snd r) = 4%nat.
Proof. vm_compute. repeat split. Qed.

Example scenario_long_report :
  let r := run default_props reference_runtime
             (Obj {[ "report" := Str (replicate 5000 88%N);
                     "timestamp" := Num 1700000000000;
                     "source" := Str (lit "scanner") ]})
             world_ok fresh in
  outbound_text r
  = Some (Str (replicate 2900 88%N ++ notice ++ LF ++ LF ++ lit "---" ++ LF
               ++ [0xD83D%N; 0xDCCA%N]
               ++ lit " **Report Generated**: 11/14/2023, 10:13:20 PM" ++ LF
               ++ [0xD83D%N; 0xDD27%N] ++ lit " **Source**: scanner" ++ LF
               ++ [0x26A1%N] ++ lit " **Processing Time**: 12ms"))
  /\ length (outbound r) = 1%nat.
Proof. vm_compute. split; reflexivity. Qed.

Example scenario_rejected_with_text :
  let r := run default_props reference_runtime
             (Obj {[ "report" := Str (lit "Acme cut prices by 10%.") ]})
             world_rejects_text fresh in
  response r
  = Value (Respond 500
             {[ "success" := Bool false;
                "error" := Undefined;
                "timestamp" := Str (lit "2023-11-14T22:13:20.036Z") ]})
  /\ text_of <$> last (outbound r)
     = Some (Str ([0xD83D%N; 0xDEA8%N]
                  ++ lit " **Competitive Intel Webhook Error**" ++ LF ++ LF
                  ++ lit "**Error**: undefined" ++ LF
                  ++ lit "**Time**: 10:13:20 PM")).
Proof. vm_compute. split; reflexivity. Qed.

(** ** Validation *)

(** C1. A request payload whose [report] field is missing or empty is
    answered with status 400 and the body [{error: "No report data
    provided"}], and no outbound call is made. *)
Theorem missing_report_is_rejected (this : Props) (rt : Runtime) (w : World)
    (fields : gmap string scalar) :
  fields !! "report" = None \/ fields !! "report" = Some (Str []) ->
  response (run this rt (Obj fields) w fresh)
  = Value (Respond 400 {[ "error" := Str (lit "No report data provided") ]})
  /\ outbound (run this rt (Obj fields) w fresh) = [].
Proof.
  intros H. apply run_falsy_report.
  destruct H as [H | H].
  - rewrite (field_None _ _ H). reflexivity.
  - rewrite (field_Some _ _ _ H). reflexivity.
Qed.

Lemma missing_report_is_rejected_witness :
  response (run default_props reference_runtime (Obj ∅) world_ok fresh)
  = Value (Respond 400 {[ "error" := Str (lit "No report data provided") ]})
  /\ outbound (run default_props reference_runtime (Obj ∅) world_ok fresh)
     = [].
Proof.
  apply (missing_report_is_rejected default_props reference_runtime world_ok ∅).
  left. reflexivity.
Defined.

(** C9. A body that is null or undefined is answered with status 500, after
    the error notification has been attempted, and not with the status-400
    validation response: reading the fields of the body throws before the
    check of [report] runs. *)
Theorem nullish_body_is_a_server_error (this : Props) (rt : Runtime)
    (w : World) (p : scalar) :
  p = Undefined \/ p = Null ->
  response (run this rt (Prim p) w fresh)
  = Value (Respond 500
             {[ "success" := Bool false;
                "error" := Str (destructure_message rt p);
                "timestamp" := Str (Date_toISOString rt (Date_now w 2)) ]})
  /\ outbound (run this rt (Prim p) w fresh)
     = [notification this rt (TypeError (destructure_message rt p))
          (Date_now w 1)]
  /\ (forall b, response (run this rt (Prim p) w fresh)
                <> Value (Respond 400 b)).
Proof.
  intros H. destruct (run_nullish this rt w p H) as [Hr Ho].
  repeat split; [exact Hr | exact Ho |].
  intros b. rewrite Hr. intros [=].
Qed.

Lemma nullish_body_is_a_server_error_witness :
  response (run default_props reference_runtime (Prim Null) world_ok fresh)
  = Value (Respond 500
             {[ "success" := Bool false;
                "error" := Str (destructure_message reference_runtime Null);
                "timestamp" := Str (lit "2023-11-14T22:13:20.024Z") ]}).
Proof.
  apply (nullish_body_is_a_server_error default_props reference_runtime
           world_ok Null).
  right. reflexivity.
Defined.

(** ** Formatting *)

(** C5. A non-empty report text no longer than [max_message_length] goes out
    unmodified, followed by the footer. *)
Theorem short_report_is_sent_whole (this : Props) (rt : Runtime) (w : World)
    (fields : gmap string scalar) (s : jsstring) :
  fields !! "report" = Some (Str s) ->
  s <> [] ->
  Z.of_nat (length s) <= max_message_length this ->
  outbound_text (run this rt (Obj fields) w fresh)
  = Some (Str (s ++ footer rt fields w)).
Proof.
  intros Hr Hne Hlen. apply field_Some in Hr.
  rewrite run_valid_text by (rewrite Hr; apply truthy_Str, Hne).
  rewrite Hr, slackMessage_short by exact Hlen. reflexivity.
Qed.

Lemma short_report_is_sent_whole_witness :
  outbound_text
    (run default_props reference_runtime
       (Obj {[ "report" := Str (lit "Acme cut prices by 10%.") ]})
       world_ok fresh)
  = Some (Str (lit "Acme cut prices by 10%."
               ++ footer reference_runtime
                    {[ "report" := Str (lit "Acme cut prices by 10%.") ]}
                    world_ok)).
Proof.
  apply (short_report_is_sent_whole default_props reference_runtime world_ok
           {[ "report" := Str (lit "Acme cut prices by 10%.") ]}
           (lit "Acme cut prices by 10%.")).
  - reflexivity.
  - discriminate.
  - vm_compute. discriminate.
Defined.

(** C10. When [max_message_length] is at most 100, a report longer than it
    keeps no prefix: the outbound text is the truncation notice followed by
    the footer. *)
Theorem small_budget_keeps_nothing (this : Props) (rt : Runtime) (w : World)
    (fields : gmap string scalar) (s : jsstring) :
  max_message_length this <= 100 ->
  fields !! "report" = Some (Str s) ->
  s <> [] ->
  Z.of_nat (length s) > max_message_length this ->
  substring s 0 (max_message_length this - 100) = []
  /\ outbound_text (run this rt (Obj fields) w fresh)
     = Some (Str (notice ++ footer rt fields w)).
Proof.
  intros Hmax Hr Hne Hlen. apply field_Some in Hr.
  assert (Hnil : take (Z.to_nat (max_message_length this - 100)) s = []).
  { replace (Z.to_nat (max_message_length this - 100)) with 0%nat by lia.
    apply take_0. }
  split.
  - rewrite substring_take. exact Hnil.
  - rewrite run_valid_text by (rewrite Hr; apply truthy_Str, Hne).
    rewrite Hr, slackMessage_long, Hnil by exact Hlen. reflexivity.
Qed.

Lemma small_budget_keeps_nothing_witness :
  outbound_text
    (run {| slack_channel := lit "#general"; max_message_length := 100;
            oauth_access_token := lit "xoxb-token" |}
       reference_runtime
       (Obj {[ "report" := Str (replicate 101 88%N) ]}) world_ok fresh)
  = Some (Str (notice
               ++ footer reference_runtime
                    {[ "report" := Str (replicate 101 88%N) ]} world_ok)).
Proof.
  apply (small_budget_keeps_nothing
           {| slack_channel := lit "#general"; max_message_length := 100;
              oauth_access_token := lit "xoxb-token" |}
           reference_runtime world_ok
           {[ "report" := Str (replicate 101 88%N) ]} (replicate 101 88%N)).
  - vm_compute. discriminate.
  - reflexivity.
  - discriminate.
  - reflexivity.
Defined.

(** C6. For a report longer than [max_message_length], the outbound text is
    the first [max_message_length - 100] characters of the report, then the
    truncation notice, then the footer.  In particular a report of 5000
    characters under a limit of 3000 keeps 2900 characters, and when the
    provider accepts the message the result has [success = true]. *)
Theorem long_report_is_truncated (this : Props) (rt : Runtime) (w : World)
    (fields : gmap string scalar) (s : jsstring) :
  fields !! "report" = Some (Str s) ->
  s <> [] ->
  Z.of_nat (length s) > max_message_length this ->
  let kept := substring s 0 (max_message_length this - 100) in
  outbound_text (run this rt (Obj fields) w fresh)
  = Some (Str (kept ++ notice ++ footer rt fields w))
  /\ kept = take (Z.to_nat (max_message_length this - 100)) s
  /\ (100 <= max_message_length this ->
      Z.of_nat (length kept) = max_message_length this - 100)
  /\ (length s = 5000%nat ->
      max_message_length this = 3000 ->
      length kept = 2900%nat
      /\ forall rf,
           send_http w 0%nat (primary this rt w fields) = Value (Obj rf) ->
           truthy (field rf "ok") = true ->
           exists result,
             response (run this rt (Obj fields) w fresh)
             = Value (Return result)
             /\ result !! "success" = Some (Bool true)).
Proof.
  intros Hr Hne Hlen kept. apply field_Some in Hr.
  assert (Hv : truthy (field fields "report") = true)
    by (rewrite Hr; apply truthy_Str, Hne).
  assert (Hk : kept = take (Z.to_nat (max_message_length this - 100)) s)
    by apply substring_take.
  split; [| split; [exact Hk | split]].
  - rewrite run_valid_text by exact Hv.
    rewrite Hr, slackMessage_long by exact Hlen.
    rewrite Hk. cbn [ToString]. rewrite <- app_assoc. reflexivity.
  - intros Hmax. rewrite Hk, length_take. lia.
  - intros H5000 H3000. split.
    + rewrite Hk, length_take, H5000, H3000. reflexivity.
    + intros rf Hsend Hok.
      destruct (run_delivered this rt w fields rf Hv Hsend Hok) as [-> _].
      eexists. split; [reflexivity | reflexivity].
Qed.

Lemma long_report_is_truncated_witness :
  let fields : gmap string scalar :=
    {[ "report" := Str (replicate 5000 88%N);
       "timestamp" := Num 1700000000000;
       "source" := Str (lit "scanner") ]} in
  outbound_text
    (run default_props reference_runtime (Obj fields) world_ok fresh)
  = Some (Str (replicate 2900 88%N ++ notice
               ++ footer reference_runtime fields world_ok))
  /\ exists result,
       response
         (run default_props reference_runtime (Obj fields) world_ok fresh)
       = Value (Return result)
       /\ result !! "success" = Some (Bool true).
Proof.
  intros fields.
  destruct (long_report_is_truncated default_props reference_runtime world_ok
              fields (replicate 5000 88%N)) as (Ht & _ & _ & Hs).
  - vm_compute; reflexivity.
  - discriminate.
  - vm_compute; reflexivity.
  - split.
    + etransitivity; [exact Ht | vm_compute; reflexivity].
    + destruct Hs as [_ Hs]; [vm_compute; reflexivity | reflexivity |].
      apply (Hs {[ "ok" := Bool true;
                   "ts" := Str (lit "1700000000.000100") ]});
        reflexivity.
Defined.

(** ** Delivery *)

(** C8. On the success path (a valid report, the provider reports success)
    the handler returns a result with [success = true], a timestamp, the
    configured channel, the length of the formatted message, the elapsed
    processing time and the provider's message identifier. *)
Theorem delivered_report_result (this : Props) (rt : Runtime) (w : World)
    (fields rf : gmap string scalar) :
  truthy (field fields "report") = true ->
  send_http w 0%nat (primary this rt w fields) = Value (Obj rf) ->
  truthy (field rf "ok") = true ->
  exists text,
    outbound (run this rt (Obj fields) w fresh)
    = [report_request this text]
    /\ response (run this rt (Obj fields) w fresh)
       = Value (Return
                  {[ "success" := Bool true;
                     "timestamp" := Str (Date_toISOString rt (Date_now w 2));
                     "slack_channel" := Str (slack_channel this);
                     "message_length" := Num (Z.of_nat (length text));
                     "processing_time_ms" :=
                       Num (Date_now w 3 - Date_now w 0);
                     "slack_message_ts" := field rf "ts" ]}).
Proof.
  intros Hv Hsend Hok.
  destruct (run_delivered this rt w fields rf Hv Hsend Hok) as [Hr Ho].
  eexists. split; [exact Ho | exact Hr].
Qed.

Lemma delivered_report_result_witness :
  exists text,
    outbound
      (run default_props reference_runtime
         (Obj {[ "report" := Str (lit "Acme cut prices by 10%.") ]})
         world_ok fresh)
    = [report_request default_props text]
    /\ response
         (run default_props reference_runtime
            (Obj {[ "report" := Str (lit "Acme cut prices by 10%.") ]})
            world_ok fresh)
       = Value (Return
                  {[ "success" := Bool true;
                     "timestamp" := Str (lit "2023-11-14T22:13:20.024Z");
                     "slack_channel" := Str (lit "#general");
                     "message_length" := Num (Z.of_nat (length text));
                     "processing_time_ms" := Num 36;
                     "slack_message_ts" := Str (lit "1700000000.000100") ]}).
Proof.
  destruct (delivered_report_result default_props reference_runtime world_ok
              {[ "report" := Str (lit "Acme cut prices by 10%.") ]}
              {[ "ok" := Bool true; "ts" := Str (lit "1700000000.000100") ]})
    as (text & Ho & Hr); [reflexivity | reflexivity | reflexivity |].
  exists text. split; [exact Ho |].
  etransitivity; [exact Hr | vm_compute; reflexivity].
Defined.




(** C4. The status-500 response of a failing request ([success = false], the
    error message, a timestamp) is the same whatever the error notification
    meets, success or failure; a failure of the notification never reaches
    the caller, both runs complete with this response.  The error field
    holds [error.message] as it was read from what the catch bound. *)
Theorem notification_failure_is_swallowed (this : Props) (rt : Runtime)
    (w w' : World) (body : jsval) (b : gmap string scalar) :
  same_but_notification w w' ->
  response (run this rt body w fresh) = Value (Respond 500 b) ->
  response (run this rt body w' fresh) = Value (Respond 500 b)
  /\ (exists msg iso,
        b = {[ "success" := Bool false; "error" := msg;
               "timestamp" := Str iso ]})
  /\ (exists c, response (run this rt body w fresh) = Value c)
  /\ (exists c', response (run this rt body w' fresh) = Value c').
Proof.
  intros Hsame Hr.
  split; [| split; [| split]].
  - rewrite <- (run_same_response this rt w w' body Hsame). exact Hr.
  - exact (run_500_shape this rt w body b Hr).
  - eexists. exact Hr.
  - eexists. rewrite <- (run_same_response this rt w w' body Hsame).
    exact Hr.
Qed.

Lemma notification_failure_is_swallowed_witness :
  response
    (run default_props reference_runtime
       (Obj {[ "report" := Str (lit "Acme cut prices by 10%.") ]})
       (with_notify world_down (Value (Obj {[ "ok" := Bool true ]}))) fresh)
  = Value (Respond 500
             {[ "success" := Bool false;
                "error" := Str (lit "connect ETIMEDOUT");
                "timestamp" := Str (lit "2023-11-14T22:13:20.036Z") ]}).
Proof.
  apply (notification_failure_is_swallowed default_props reference_runtime
           world_down
           (with_notify world_down (Value (Obj {[ "ok" := Bool true ]})))
           (Obj {[ "report" := Str (lit "Acme cut prices by 10%.") ]})).
  - split; [reflexivity |].
    intros k req H. cbn [with_notify send_http]. rewrite H. reflexivity.
  - vm_compute. reflexivity.
Defined.

(** ** The length budget and the footer labels *)

(** C2, as stated, fails: under the default limit of 3000 a report of 5000
    characters goes out as a text of 3051 characters, longer than the limit,
    and the text ends with the footer, not with the truncation notice. *)
Lemma truncated_text_exceeds_limit :
  let report := replicate 5000 88%N in
  let r := run default_props reference_runtime
             (Obj {[ "report" := Str report ]}) world_ok fresh in
  Z.of_nat (length report) > max_message_length default_props
  /\ exists t,
       outbound_text r = Some (Str t)
       /\ Z.of_nat (length t) = 3051
       /\ ~ Z.of_nat (length t) <= max_message_length default_props
       /\ ~ notice `suffix_of` t.
Proof.
  intros report r. split; [reflexivity |].
  eexists. split; [vm_compute; reflexivity |].
  split; [vm_compute; reflexivity |].
  split.
  - vm_compute. intros H. apply H. reflexivity.
  - intros H. apply (bool_decide_pack _) in H. vm_compute in H.
    exact (Is_true_false_2 _ eq_refl H).
Qed.

(** C2, amended.  For a non-empty report longer than [max_message_length],
    with a limit of at least 42 (the length of the truncation notice), the
    outbound text is the truncated report followed by the footer, and the
    truncated report (the retained prefix and the notice) is no longer than
    the limit and ends with the truncation notice. *)
Theorem truncated_report_fits_limit (this : Props) (rt : Runtime) (w : World)
    (fields : gmap string scalar) (s : jsstring) :
  fields !! "report" = Some (Str s) ->
  s <> [] ->
  Z.of_nat (length s) > max_message_length this ->
  42 <= max_message_length this ->
  exists truncated,
    truncated = substring s 0 (max_message_length this - 100) ++ notice
    /\ outbound_text (run this rt (Obj fields) w fresh)
       = Some (Str (truncated ++ footer rt fields w))
    /\ Z.of_nat (length truncated) <= max_message_length this
    /\ notice `suffix_of` truncated.
Proof.
  intros Hr Hne Hlen Hmax. apply field_Some in Hr.
  eexists. split; [reflexivity |]. rewrite substring_take.
  split; [| split].
  - rewrite run_valid_text by (rewrite Hr; apply truthy_Str, Hne).
    rewrite Hr, slackMessage_long by exact Hlen. reflexivity.
  - rewrite length_app, length_take, notice_length. lia.
  - apply suffix_app_r. reflexivity.
Qed.

Lemma truncated_report_fits_limit_witness :
  exists truncated,
    truncated = substring (replicate 5000 88%N) 0 2900 ++ notice
    /\ outbound_text
         (run default_props reference_runtime
            (Obj {[ "report" := Str (replicate 5000 88%N) ]}) world_ok fresh)
       = Some (Str (truncated
                    ++ footer reference_runtime
                         {[ "report" := Str (replicate 5000 88%N) ]}
                         world_ok))
    /\ Z.of_nat (length truncated) <= 3000
    /\ notice `suffix_of` truncated.
Proof.
  apply (truncated_report_fits_limit default_props reference_runtime world_ok
           {[ "report" := Str (replicate 5000 88%N) ]}
           (replicate 5000 88%N)).
  - vm_compute; reflexivity.
  - discriminate.
  - vm_compute; reflexivity.
  - vm_compute; discriminate.
Defined.

(** C7, as stated, fails: a timestamp of 0 and an empty source are present
    in the body, yet the footer shows "Unknown time" and the default source
    label, not the labels of the specification's wording. *)
Lemma falsy_fields_take_the_defaults :
  let report := lit "Acme cut prices by 10%." in
  let fields : gmap string scalar :=
    {[ "report" := Str report; "timestamp" := Num 0; "source" := Str [] ]} in
  let r := run default_props reference_runtime (Obj fields) world_ok fresh in
  fields !! "timestamp" = Some (Num 0)
  /\ fields !! "source" = Some (Str [])
  /\ outbound_text r
     = Some (Str (report
                  ++ footer_with reference_runtime (lit "Unknown time")
                       (lit "Competitive Intel Tool") 12))
  /\ outbound_text r
     <> Some (Str (report
                   ++ footer_with reference_runtime
                        (spec_time_label reference_runtime
                           (fields !! "timestamp"))
                        (spec_source_label reference_runtime
                           (fields !! "source")) 12))
  /\ spec_time_label reference_runtime (fields !! "timestamp")
     = lit "1/1/1970, 12:00:00 AM"
  /\ spec_source_label reference_runtime (fields !! "source") = [].
Proof.
  intros report fields r.
  repeat split; try (vm_compute; reflexivity).
  vm_compute. discriminate.
Qed.

(** C7, amended.  For every valid request the footer shows the time
    formatted from [timestamp] when the timestamp is truthy and "Unknown
    time" when it is absent or falsy (null, 0, the empty string, false), and
    shows [source] when it is truthy and the default label when it is absent
    or falsy. *)
Theorem footer_labels_follow_truthiness (this : Props) (rt : Runtime)
    (w : World) (fields : gmap string scalar) :
  truthy (field fields "report") = true ->
  let timestamp := field fields "timestamp" in
  let source := field fields "source" in
  exists time label,
    outbound_text (run this rt (Obj fields) w fresh)
    = Some (Str (ToString rt (slackMessage this (field fields "report"))
                 ++ footer_with rt time label (Date_now w 1 - Date_now w 0)))
    /\ time = (if truthy timestamp then Date_toLocaleString rt timestamp
               else lit "Unknown time")
    /\ label = (if truthy source then ToString rt source
                else lit "Competitive Intel Tool")
    /\ (fields !! "timestamp" = None -> time = lit "Unknown time")
    /\ (fields !! "source" = None -> label = lit "Competitive Intel Tool").
Proof.
  intros Hv timestamp source.
  exists (time_label rt timestamp), (source_label rt source).
  split; [apply (run_valid_text this rt w fields Hv) |].
  split; [reflexivity |]. split; [reflexivity |]. split.
  - intros H. unfold timestamp. rewrite (field_None _ _ H). reflexivity.
  - intros H. unfold source. rewrite (field_None _ _ H). reflexivity.
Qed.

Lemma footer_labels_follow_truthiness_witness :
  exists time label,
    outbound_text
      (run default_props reference_runtime
         (Obj {[ "report" := Str (lit "Acme cut prices by 10%.");
                 "timestamp" := Num 1700000000000;
                 "source" := Str (lit "scanner") ]}) world_ok fresh)
    = Some (Str (lit "Acme cut prices by 10%."
                 ++ footer_with reference_runtime time label 12))
    /\ time = lit "11/14/2023, 10:13:20 PM"
    /\ label = lit "scanner".
Proof.
  destruct (footer_labels_follow_truthiness default_props reference_runtime
              world_ok
              {[ "report" := Str (lit "Acme cut prices by 10%.");
                 "timestamp" := Num 1700000000000;
                 "source" := Str (lit "scanner") ]})
    as (time & label & Ht & Htime & Hlabel & _); [reflexivity |].
  exists time, label. split; [| split].
  - etransitivity; [exact Ht | reflexivity].
  - etransitivity; [exact Htime | vm_compute; reflexivity].
  - etransitivity; [exact Hlabel | vm_compute; reflexivity].
Defined.

(** * Further properties of the handler *)

(** ** Validation, both ways *)

(** X1. The status-400 response is given exactly to the bodies that are not
    null or undefined and hold no truthy [report]: a primitive body, or an
    object whose report is missing, null, false, 0 or empty.  Then the body
    of the response is the fixed error, nothing is sent and the clock is
    read once. *)
Theorem rejected_iff_no_truthy_report (this : Props) (rt : Runtime)
    (w : World) (body : jsval) :
  let r := run this rt body w fresh in
  let unusable :=
    (exists p, body = Prim p /\ p <> Undefined /\ p <> Null)
    \/ (exists fields, body = Obj fields
                       /\ truthy (field fields "report") = false) in
  (unusable ->
   response r
   = Value (Respond 400 {[ "error" := Str (lit "No report data provided") ]})
   /\ outbound r = [] /\ ticks (snd r) = 1%nat)
  /\ (forall b, response r = Value (Respond 400 b) -> unusable).
Proof.
  intros r unusable. subst r unusable. split.
  - intros [(p & -> & Hu & Hn) | (fields & -> & Hf)].
    + destruct p; try congruence; run_step; repeat split.
    + run_step. rewrite Hf. run_step. repeat split.
  - intros b. destruct body as [p | fields].
    + destruct p; run_paths w; intros [=];
        left; eexists; repeat split; congruence.
    + run_paths w; intros [=]. right. eexists. split; [reflexivity |].
      assumption.
Qed.

Lemma rejected_iff_no_truthy_report_witness :
  response
    (run default_props reference_runtime (Prim (Str (lit "report=hello")))
       world_ok fresh)
  = Value (Respond 400 {[ "error" := Str (lit "No report data provided") ]}).
Proof.
  apply (rejected_iff_no_truthy_report default_props reference_runtime
           world_ok (Prim (Str (lit "report=hello")))).
  left. eexists. repeat split; discriminate.
Defined.

(** ** The failure path *)

(** X2. A status-500 response always comes after an error notification, the
    last outbound call, which carries the very error message of the
    response (in its string form); the timestamp of the response is the
    next reading of the clock after the one shown in the notification. *)
Theorem server_error_follows_its_notification (this : Props) (rt : Runtime)
    (w : World) (body : jsval) (b : gmap string scalar) :
  response (run this rt body w fresh) = Value (Respond 500 b) ->
  exists msg k,
    b = {[ "success" := Bool false;
           "error" := msg;
           "timestamp" := Str (Date_toISOString rt (Date_now w (S k))) ]}
    /\ last (outbound (run this rt body w fresh))
       = Some (error_request this
                 (notification_text (ToString rt msg)
                    (Date_toLocaleTimeString rt (Date_now w k))))
    /\ ticks (snd (run this rt body w fresh)) = S (S k).
Proof.
  destruct body as [p | fields]; [destruct p |]; run_paths w;
    intros [= <-]; eexists _, _;
    (split; [reflexivity | split; reflexivity]).
Qed.

Lemma server_error_follows_its_notification_witness :
  exists msg k,
    last (outbound
            (run default_props reference_runtime
               (Obj {[ "report" := Str (lit "Acme cut prices by 10%.") ]})
               world_down fresh))
    = Some (error_request default_props
              (notification_text (ToString reference_runtime msg)
                 (Date_toLocaleTimeString reference_runtime
                    (Date_now world_down k))))
    /\ msg = Str (lit "connect ETIMEDOUT").
Proof.
  destruct (server_error_follows_its_notification default_props
              reference_runtime world_down
              (Obj {[ "report" := Str (lit "Acme cut prices by 10%.") ]})
              {[ "success" := Bool false;
                 "error" := Str (lit "connect ETIMEDOUT");
                 "timestamp" := Str (lit "2023-11-14T22:13:20.036Z") ]})
    as (msg & k & Hb & Hlast & _).
  - vm_compute. reflexivity.
  - exists msg, k. split; [exact Hlast |].
    assert (H : ({[ "success" := Bool false;
                    "error" := Str (lit "connect ETIMEDOUT");
                    "timestamp" := Str (lit "2023-11-14T22:13:20.036Z") ]}
                 : gmap string scalar) !! "error"
                = Some msg).
    { rewrite Hb. reflexivity. }
    vm_compute in H. injection H as H. symmetry. exact H.
Defined.

(** The calls of a run: at most a report call, then at most an error
    notification. *)
Lemma run_calls_shape (this : Props) (rt : Runtime) (w : World)
    (body : jsval) :
  exists text notice_text,
    outbound (run this rt body w fresh) = []
    \/ outbound (run this rt body w fresh) = [report_request this text]
    \/ outbound (run this rt body w fresh)
       = [error_request this notice_text]
    \/ outbound (run this rt body w fresh)
       = [report_request this text; error_request this notice_text].
Proof.
  destruct body as [p | fields].
  - destruct p; run_paths w; eexists _, _;
      first [ left; reflexivity | right; right; left; reflexivity ].
  - run_paths w; eexists _, _;
      first [ left; reflexivity
            | right; left; reflexivity
            | right; right; right; reflexivity ].
  Unshelve. all: exact [].
Qed.

(** X3. No call is repeated: a run makes at most one report call and at
    most one error notification, the report first; so at most two calls,
    of which at most one is a notification. *)
Theorem calls_are_never_repeated (this : Props) (rt : Runtime) (w : World)
    (body : jsval) :
  let sent := outbound (run this rt body w fresh) in
  (exists text notice_text,
     sent = []
     \/ sent = [report_request this text]
     \/ sent = [error_request this notice_text]
     \/ sent = [report_request this text; error_request this notice_text])
  /\ (length sent <= 2)%nat
  /\ (length (List.filter is_notification sent) <= 1)%nat
  /\ (length (List.filter (fun req => negb (is_notification req)) sent)
      <= 1)%nat.
Proof.
  intros sent. subst sent.
  destruct (run_calls_shape this rt w body)
    as (text & ntext & H).
  split; [exists text, ntext; exact H |].
  destruct H as [-> | [-> | [-> | ->]]]; cbn [List.filter length];
    rewrite ?is_notification_report, ?is_notification_error;
    cbn [negb length]; lia.
Qed.

(** X4. Every outbound call of every run is a POST to the provider's
    [chat.postMessage] endpoint, authorized with the configured token, and
    addressed to the configured channel under the bot's name. *)
Theorem every_call_goes_to_the_channel (this : Props) (rt : Runtime)
    (w : World) (body : jsval) :
  Forall
    (fun req =>
       method req = lit "POST"
       /\ url req = lit "https://slack.com/api/chat.postMessage"
       /\ headers req !! "Authorization"
          = Some (Str (lit "Bearer " ++ oauth_access_token this))
       /\ headers req !! "Content-Type" = Some (Str (lit "application/json"))
       /\ channel_of req = Str (slack_channel this)
       /\ field (data req) "username" = Str (lit "Competitive Intel Bot"))
    (outbound (run this rt body w fresh)).
Proof.
  destruct (run_calls_shape this rt w body)
    as (text & ntext & [-> | [-> | [-> | ->]]]);
    repeat constructor.
Qed.

(** ** What the provider call hands back *)

(** X5. When the client hands back undefined or null instead of a response,
    reading [ok] throws after the report has been sent: the handler notifies
    and responds with status 500 and the TypeError's message. *)
Theorem missing_response_is_a_server_error (this : Props) (rt : Runtime)
    (w : World) (fields : gmap string scalar) (p : scalar) :
  truthy (field fields "report") = true ->
  send_http w 0%nat (primary this rt w fields) = Value (Prim p) ->
  p = Undefined \/ p = Null ->
  response (run this rt (Obj fields) w fresh)
  = Value (Respond 500
             {[ "success" := Bool false;
                "error" := Str (read_message rt p "ok");
                "timestamp" := Str (Date_toISOString rt (Date_now w 3)) ]})
  /\ outbound (run this rt (Obj fields) w fresh)
     = [primary this rt w fields;
        notification this rt (TypeError (read_message rt p "ok"))
          (Date_now w 2)].
Proof.
  intros Hv Hsend Hp. run_step. rewrite Hv. run_step.
  fold (primary this rt w fields). rewrite Hsend.
  destruct Hp as [-> | ->]; run_step;
    destruct (send_http w 1%nat _); split; reflexivity.
Qed.

Lemma missing_response_is_a_server_error_witness :
  response
    (run default_props reference_runtime
       (Obj {[ "report" := Str (lit "Acme cut prices by 10%.") ]})
       world_silent fresh)
  = Value (Respond 500
             {[ "success" := Bool false;
                "error" :=
                  Str (lit "Cannot read properties of undefined (reading 'ok')");
                "timestamp" := Str (lit "2023-11-14T22:13:20.036Z") ]}).
Proof.
  etransitivity;
    [ apply (missing_response_is_a_server_error default_props
               reference_runtime world_silent
               {[ "report" := Str (lit "Acme cut prices by 10%.") ]}
               Undefined);
      [reflexivity | reflexivity | left; reflexivity]
    | vm_compute; reflexivity ].
Defined.

(** X6. A response that is a primitive other than null and undefined, or an
    object holding neither [ok] nor [error], counts as a failure reported by
    the provider: status 500, and the message is "Slack error: " followed by
    the stringified undefined. *)
Theorem response_without_ok_is_a_failure (this : Props) (rt : Runtime)
    (w : World) (fields : gmap string scalar) :
  truthy (field fields "report") = true ->
  (exists p, send_http w 0%nat (primary this rt w fields) = Value (Prim p)
             /\ p <> Undefined /\ p <> Null)
  \/ (exists rf, send_http w 0%nat (primary this rt w fields) = Value (Obj rf)
                 /\ rf !! "ok" = None /\ rf !! "error" = None) ->
  let error :=
    Error (lit "Slack error: " ++ ToString rt (JSON_stringify rt Undefined)) in
  response (run this rt (Obj fields) w fresh)
  = Value (Respond 500
             {[ "success" := Bool false;
                "error" := Str (message error);
                "timestamp" := Str (Date_toISOString rt (Date_now w 3)) ]})
  /\ outbound (run this rt (Obj fields) w fresh)
     = [primary this rt w fields; notification this rt error (Date_now w 2)].
Proof.
  intros Hv [(p & Hsend & Hu & Hn) | (rf & Hsend & Hok & Herr)] error.
  - run_step. rewrite Hv. run_step.
    fold (primary this rt w fields). rewrite Hsend.
    destruct p; try congruence; run_step;
      destruct (send_http w 1%nat _); split; reflexivity.
  - pose proof (run_provider_fails this rt w fields rf Hv Hsend) as H.
    rewrite (field_None _ _ Hok), (field_None _ _ Herr) in H.
    apply H. reflexivity.
Qed.

Lemma response_without_ok_is_a_failure_witness :
  response
    (run default_props reference_runtime
       (Obj {[ "report" := Str (lit "Acme cut prices by 10%.") ]})
       world_bare fresh)
  = Value (Respond 500
             {[ "success" := Bool false;
                "error" := Str (lit "Slack error: undefined");
                "timestamp" := Str (lit "2023-11-14T22:13:20.036Z") ]}).
Proof.
  etransitivity;
    [ apply (response_without_ok_is_a_failure default_props
               reference_runtime world_bare
               {[ "report" := Str (lit "Acme cut prices by 10%.") ]});
      [ reflexivity
      | right; exists ∅; repeat split; reflexivity ]
    | vm_compute; reflexivity ].
Defined.

(** X7. A result object is returned only on the success path: the body is an
    object with a truthy report, the provider's answer to the report call is
    an object with a truthy [ok], that call is the only one made, and the
    result carries [success = true] and the [ts] of the answer. *)
Theorem result_means_delivered (this : Props) (rt : Runtime) (w : World)
    (body : jsval) (result : gmap string scalar) :
  response (run this rt body w fresh) = Value (Return result) ->
  exists fields rf,
    body = Obj fields
    /\ truthy (field fields "report") = true
    /\ send_http w 0%nat (primary this rt w fields) = Value (Obj rf)
    /\ truthy (field rf "ok") = true
    /\ outbound (run this rt body w fresh) = [primary this rt w fields]
    /\ result !! "success" = Some (Bool true)
    /\ result !! "slack_message_ts" = Some (field rf "ts").
Proof.
  destruct body as [p | fields].
  - destruct p; run_paths w; intros [=].
  - run_paths w; intros [= <-].
    eexists _, _. repeat split; eassumption.
Qed.

Lemma result_means_delivered_witness :
  exists fields rf,
    Obj {[ "report" := Str (lit "Acme cut prices by 10%.") ]} = Obj fields
    /\ send_http world_ok 0%nat
         (primary default_props reference_runtime world_ok fields)
       = Value (Obj rf)
    /\ truthy (field rf "ok") = true.
Proof.
  destruct (run_delivered default_props reference_runtime world_ok
              {[ "report" := Str (lit "Acme cut prices by 10%.") ]}
              {[ "ok" := Bool true; "ts" := Str (lit "1700000000.000100") ]})
    as (Hr & _); [reflexivity | reflexivity | reflexivity |].
  destruct (result_means_delivered default_props reference_runtime world_ok
              _ _ Hr) as (fields & rf & Hb & _ & Hsend & Hok & _).
  exists fields, rf. repeat split; assumption.
Defined.

(** ** Formatting at the edges *)

(** X8. A truthy report that is not a string (a number, true) has no
    length: it is never truncated, whatever the limit, and goes out in its
    string form followed by the footer. *)
Theorem non_text_report_is_never_truncated (this : Props) (rt : Runtime)
    (w : World) (fields : gmap string scalar) (v : scalar) :
  fields !! "report" = Some v ->
  truthy v = true ->
  (forall s, v <> Str s) ->
  outbound_text (run this rt (Obj fields) w fresh)
  = Some (Str (ToString rt v ++ footer rt fields w)).
Proof.
  intros Hr Hv Hs. apply field_Some in Hr.
  rewrite run_valid_text by (rewrite Hr; exact Hv).
  rewrite Hr. destruct v; try reflexivity.
  exfalso. exact (Hs s eq_refl).
Qed.

Lemma non_text_report_is_never_truncated_witness :
  outbound_text
    (run {| slack_channel := lit "#general"; max_message_length := 0;
            oauth_access_token := lit "xoxb-token" |}
       reference_runtime (Obj {[ "report" := Num 1234567 ]}) world_ok fresh)
  = Some (Str (lit "1234567"
               ++ footer reference_runtime {[ "report" := Num 1234567 ]}
                    world_ok)).
Proof.
  apply (non_text_report_is_never_truncated
           {| slack_channel := lit "#general"; max_message_length := 0;
              oauth_access_token := lit "xoxb-token" |}
           reference_runtime world_ok {[ "report" := Num 1234567 ]}
           (Num 1234567)).
  - reflexivity.
  - reflexivity.
  - discriminate.
Defined.

Lemma footer_with_length (rt : Runtime) (time label : jsstring) (e : Z) :
  length (footer_with rt time label e)
  = (73 + length time + length label
     + length (Number_toString rt e))%nat.
Proof.
  unfold footer_with. rewrite !length_app. cbn [length LF lit]. lia.
Qed.

(** X9. Truncation does not bring the text under the limit: for a report
    longer than a limit of at least 100, the outbound text has
    [max_message_length - 58] characters and the footer, which has at least
    73, so it exceeds the limit by at least 15. *)
Theorem truncated_text_overruns_the_limit (this : Props) (rt : Runtime)
    (w : World) (fields : gmap string scalar) (s : jsstring) :
  fields !! "report" = Some (Str s) ->
  Z.of_nat (length s) > max_message_length this ->
  100 <= max_message_length this ->
  exists text,
    outbound_text (run this rt (Obj fields) w fresh) = Some (Str text)
    /\ Z.of_nat (length text)
       = max_message_length this - 58
         + Z.of_nat (length (footer rt fields w))
    /\ Z.of_nat (length text) >= max_message_length this + 15.
Proof.
  intros Hr Hlen Hmax. apply field_Some in Hr.
  assert (Hne : s <> []) by (intros ->; cbn in Hlen; lia).
  eexists. split.
  - rewrite run_valid_text by (rewrite Hr; apply truthy_Str, Hne).
    rewrite Hr, slackMessage_long by exact Hlen. reflexivity.
  - cbn [ToString]. rewrite !length_app, length_take, notice_length.
    unfold footer. rewrite footer_with_length. lia.
Qed.

Lemma truncated_text_overruns_the_limit_witness :
  exists text,
    outbound_text
      (run default_props reference_runtime
         (Obj {[ "report" := Str (replicate 5000 88%N) ]}) world_ok fresh)
    = Some (Str text)
    /\ Z.of_nat (length text) >= 3015.
Proof.
  destruct (truncated_text_overruns_the_limit default_props reference_runtime
              world_ok {[ "report" := Str (replicate 5000 88%N) ]}
              (replicate 5000 88%N)) as (text & Ht & _ & Hl).
  - vm_compute; reflexivity.
  - vm_compute; reflexivity.
  - vm_compute; discriminate.
  - exists text. split; [exact Ht | exact Hl].
Defined.

(** X10. The cut falls after exactly [max_message_length - 100] code units,
    whatever they are: in the outbound text the unit before the notice is
    the report's unit at index [max_message_length - 101], also when it is
    the first half of a surrogate pair, and the line feed of the notice
    follows it. *)
Theorem cut_ignores_surrogate_pairs (this : Props) (rt : Runtime) (w : World)
    (fields : gmap string scalar) (s : jsstring) :
  fields !! "report" = Some (Str s) ->
  Z.of_nat (length s) > max_message_length this ->
  101 <= max_message_length this ->
  exists text,
    outbound_text (run this rt (Obj fields) w fresh) = Some (Str text)
    /\ text !! Z.to_nat (max_message_length this - 101)
       = s !! Z.to_nat (max_message_length this - 101)
    /\ text !! Z.to_nat (max_message_length this - 100) = Some 10%N.
Proof.
  intros Hr Hlen Hmax. apply field_Some in Hr.
  assert (Hne : s <> []) by (intros ->; cbn in Hlen; lia).
  eexists. split.
  - rewrite run_valid_text by (rewrite Hr; apply truthy_Str, Hne).
    rewrite Hr, slackMessage_long by exact Hlen. reflexivity.
  - cbn [ToString]. rewrite <- app_assoc. unfold jsstring in *. split.
    + rewrite lookup_app_l by (rewrite length_take; lia).
      apply lookup_take_lt. lia.
    + rewrite lookup_app_r by (rewrite length_take; lia).
      rewrite length_take.
      replace (Z.to_nat (max_message_length this - 100)
               - Z.to_nat (max_message_length this - 100)
                   `min` length s)%nat with 0%nat by lia.
      reflexivity.
Qed.

Lemma cut_ignores_surrogate_pairs_witness :
  exists text,
    outbound_text
      (run {| slack_channel := lit "#general"; max_message_length := 101;
              oauth_access_token := lit "xoxb-token" |}
         reference_runtime
         (Obj {[ "report" := Str ([0xD83D%N; 0xDCCA%N]
                                  ++ replicate 100 88%N) ]})
         world_ok fresh)
    = Some (Str text)
    /\ text !! 0%nat = Some 0xD83D%N
    /\ text !! 1%nat = Some 10%N.
Proof.
  destruct (cut_ignores_surrogate_pairs
              {| slack_channel := lit "#general"; max_message_length := 101;
                 oauth_access_token := lit "xoxb-token" |}
              reference_runtime world_ok
              {[ "report" := Str ([0xD83D%N; 0xDCCA%N]
                                  ++ replicate 100 88%N) ]}
              ([0xD83D%N; 0xDCCA%N] ++ replicate 100 88%N))
    as (text & Ht & H0 & H1).
  - reflexivity.
  - vm_compute; reflexivity.
  - vm_compute; discriminate.
  - exists text. split; [exact Ht |]. split; [exact H0 | exact H1].
Defined.

(** ** The console

    Reading a position of the short lists of calls. *)

Lemma lookup_nil_inv {A} (x : A) (k : nat) : @nil A !! k = Some x -> False.
Proof. destruct k; discriminate. Qed.

Lemma lookup_single_inv {A} (a x : A) (k : nat) :
  [a] !! k = Some x -> k = 0%nat /\ x = a.
Proof. destruct k as [| [| k]]; intros [=]; auto. Qed.

Lemma lookup_pair_inv {A} (a b x : A) (k : nat) :
  [a; b] !! k = Some x -> (k = 0%nat /\ x = a) \/ (k = 1%nat /\ x = b).
Proof. destruct k as [| [| [| k]]]; intros [=]; auto. Qed.

(** A console line that cannot be the line of the inner catch. *)
Ltac absurd_line H :=
  unfold notify_failure_line in H;
  first [ discriminate H
        | let H1 := fresh in let H2 := fresh in
          injection H as H1 H2; vm_compute in H1; discriminate H1 ].

(** X11. The console holds the line "Failed to send error to Slack:" with
    an error exactly in two cases: an error notification was sent and the
    call threw that error; or the report call was rejected with null or
    undefined, so that reading [error.message] for the notification threw
    that TypeError and no notification was sent. *)
Theorem notification_failure_is_logged (this : Props) (rt : Runtime)
    (w : World) (body : jsval) (e : thrown) :
  notify_failure_line e ∈ console (snd (run this rt body w fresh))
  <-> (exists k req,
         outbound (run this rt body w fresh) !! k = Some req
         /\ is_notification req = true
         /\ send_http w k req = Thrown e)
      \/ (exists k req p,
            outbound (run this rt body w fresh) !! k = Some req
            /\ is_notification req = false
            /\ send_http w k req = Thrown (Raw (Prim p))
            /\ (p = Undefined \/ p = Null)
            /\ e = TypeError (read_message rt p "message")).
Proof.
  destruct body as [p | fields]; [destruct p |]; run_paths w; split.
  all: try (intros H;
    repeat (apply elem_of_cons in H as [H | H]);
    try (apply elem_of_nil in H; contradiction);
    try (absurd_line H);
    unfold notify_failure_line in H; injection H as H; subst e;
    first [ left; exists 0%nat; eexists;
            split; [reflexivity | split; [reflexivity | eassumption]]
          | left; exists 1%nat; eexists;
            split; [reflexivity | split; [reflexivity | eassumption]]
          | right; exists 0%nat; eexists _, _;
            split; [reflexivity |];
            split; [reflexivity |];
            split; [eassumption |];
            split; [auto | reflexivity] ]).
  all: intros [(k & req & Hk & Hn & Hs)
              | (k & req & q & Hk & Hn & Hs & Hq & ->)];
    (first [ apply lookup_nil_inv in Hk; contradiction
           | apply lookup_single_inv in Hk as [-> ->]
           | apply lookup_pair_inv in Hk as [[-> ->] | [-> ->]] ]);
    rewrite ?is_notification_report, ?is_notification_error in Hn;
    try discriminate Hn.
  all: revert Hs;
    match goal with
    | Ha : send_http _ _ _ = _ |- _ => rewrite Ha
    end;
    intros Hs; try discriminate Hs.
  all: try (destruct Hq as [-> | ->]; try discriminate Hs).
  all: try (injection Hs as <-);
    unfold notify_failure_line;
    repeat first [apply list_elem_of_here | apply list_elem_of_further].
Qed.

Lemma notification_failure_is_logged_witness :
  notify_failure_line (Error (lit "connect ETIMEDOUT"))
  ∈ console
      (snd (run default_props reference_runtime (Prim Null) world_down
              fresh)).
Proof.
  apply (notification_failure_is_logged default_props reference_runtime
           world_down (Prim Null) (Error (lit "connect ETIMEDOUT"))).
  left. exists 0%nat. eexists. split; [reflexivity |]. split; reflexivity.
Defined.

(** ** The credential *)

(** X12. The access token reaches nothing but the Authorization header:
    when the answers of the HTTP client do not depend on that header, the
    response, the console and every outbound request without its
    Authorization header (method, url, other headers, payload) are the same
    under any other token, whose calls carry it in that header. *)
Theorem token_stays_in_the_header (this : Props) (rt : Runtime) (w : World)
    (body : jsval) (token : jsstring) :
  (forall k r r',
     unauthorized r = unauthorized r' -> send_http w k r = send_http w k r') ->
  let r1 := run this rt body w fresh in
  let r2 := run (with_token this token) rt body w fresh in
  response r1 = response r2
  /\ console (snd r1) = console (snd r2)
  /\ unauthorized <$> outbound r1 = unauthorized <$> outbound r2
  /\ Forall
       (fun req =>
          headers req !! "Authorization" = Some (Str (lit "Bearer " ++ token)))
       (outbound r2).
Proof.
  intros Hblind r1 r2. subst r1 r2.
  assert (Hp : forall k t,
             send_http w k (report_request (with_token this token) t)
             = send_http w k (report_request this t))
    by (intros; apply Hblind; reflexivity).
  assert (He : forall k t,
             send_http w k (error_request (with_token this token) t)
             = send_http w k (error_request this t))
    by (intros; apply Hblind; reflexivity).
  destruct body as [p | fields]; [destruct p |];
    repeat (run_step;
            change (formattedMessage (with_token this token))
              with (formattedMessage this);
            rewrite ?Hp, ?He;
            match goal with
            | |- context [truthy (field ?f "report")] =>
                destruct (truthy (field f "report"))
            | |- context [truthy (field ?f "ok")] =>
                destruct (truthy (field f "ok"))
            | |- context [send_http w ?k ?r] =>
                destruct (send_http w k r)
            | |- context [match ?x with _ => _ end] =>
                is_var x; destruct x
            end);
    run_step; repeat split; repeat constructor.
Qed.

Lemma token_stays_in_the_header_witness :
  response
    (run default_props reference_runtime
       (Obj {[ "report" := Str (lit "Acme cut prices by 10%.") ]})
       world_refused fresh)
  = response
      (run (with_token default_props (lit "xoxb-other")) reference_runtime
         (Obj {[ "report" := Str (lit "Acme cut prices by 10%.") ]})
         world_refused fresh).
Proof.
  apply (token_stays_in_the_header default_props reference_runtime
           world_refused
           (Obj {[ "report" := Str (lit "Acme cut prices by 10%.") ]})
           (lit "xoxb-other")).
  intros k r r' _. reflexivity.
Defined.

(** ** The two processing times *)

(** X13. On the success path the processing time shown in the footer is
    taken before the provider call and the one in the result after it: with
    a clock that does not run backwards, the time in the message is at most
    [processing_time_ms], and neither is negative. *)
Theorem footer_time_is_below_result_time (this : Props) (rt : Runtime)
    (w : World) (fields rf : gmap string scalar) :
  (forall k, Date_now w k <= Date_now w (S k)) ->
  truthy (field fields "report") = true ->
  send_http w 0%nat (primary this rt w fields) = Value (Obj rf) ->
  truthy (field rf "ok") = true ->
  exists shown returned result,
    outbound_text (run this rt (Obj fields) w fresh)
    = Some (Str (ToString rt (slackMessage this (field fields "report"))
                 ++ footer_with rt (time_label rt (field fields "timestamp"))
                      (source_label rt (field fields "source")) shown))
    /\ response (run this rt (Obj fields) w fresh) = Value (Return result)
    /\ result !! "processing_time_ms" = Some (Num returned)
    /\ 0 <= shown <= returned.
Proof.
  intros Hclock Hv Hsend Hok.
  destruct (run_delivered this rt w fields rf Hv Hsend Hok) as [Hr _].
  exists (Date_now w 1 - Date_now w 0), (Date_now w 3 - Date_now w 0).
  eexists. split; [apply (run_valid_text this rt w fields Hv) |].
  split; [exact Hr |]. split; [reflexivity |].
  pose proof (Hclock 0%nat). pose proof (Hclock 1%nat).
  pose proof (Hclock 2%nat). lia.
Qed.

Lemma footer_time_is_below_result_time_witness :
  exists shown returned result,
    response
      (run default_props reference_runtime
         (Obj {[ "report" := Str (lit "Acme cut prices by 10%.") ]})
         world_ok fresh)
    = Value (Return result)
    /\ result !! "processing_time_ms" = Some (Num returned)
    /\ 0 <= shown <= returned.
Proof.
  destruct (footer_time_is_below_result_time default_props reference_runtime
              world_ok
              {[ "report" := Str (lit "Acme cut prices by 10%.") ]}
              {[ "ok" := Bool true; "ts" := Str (lit "1700000000.000100") ]})
    as (shown & returned & result & _ & Hr & Hp & Hle).
  - intros k. unfold world_ok, reference_clock. cbn [Date_now]. lia.
  - reflexivity.
  - reflexivity.
  - reflexivity.
  - exists shown, returned, result. split; [exact Hr |].
    split; [exact Hp | exact Hle].
Defined.

(** ** When the handler itself rejects *)

(** X14. The handler rejects instead of responding in one case only: the
    body holds a truthy report and the report call is rejected with null or
    undefined.  The rejection is then the TypeError of reading
    [error.message]; in every other run the handler completes with a
    value. *)
Theorem handler_rejects_iff_nullish_rejection (this : Props) (rt : Runtime)
    (w : World) (body : jsval) (e : thrown) :
  response (run this rt body w fresh) = Thrown e
  <-> exists fields p,
        body = Obj fields
        /\ truthy (field fields "report") = true
        /\ send_http w 0%nat (primary this rt w fields)
           = Thrown (Raw (Prim p))
        /\ (p = Undefined \/ p = Null)
        /\ e = TypeError (read_message rt p "message").
Proof.
  split.
  - destruct body as [p | fields]; [destruct p |]; run_paths w;
      intros [= <-]; eexists _, _;
      (split; [reflexivity |]); (split; [assumption |]);
      (split; [eassumption |]); split; auto.
  - intros (fields & p & -> & Hv & Hs & Hp & ->).
    apply (run_call_rejects_nullish this rt w fields p Hv Hs Hp).
Qed.

Lemma handler_rejects_iff_nullish_rejection_witness :
  response
    (run default_props reference_runtime
       (Obj {[ "report" := Str (lit "Acme cut prices by 10%.") ]})
       world_rejects_nothing fresh)
  = Thrown (TypeError
              (read_message reference_runtime Undefined "message")).
Proof.
  apply (handler_rejects_iff_nullish_rejection default_props
           reference_runtime world_rejects_nothing
           (Obj {[ "report" := Str (lit "Acme cut prices by 10%.") ]})).
  exists {[ "report" := Str (lit "Acme cut prices by 10%.") ]}, Undefined.
  split; [reflexivity |]. split; [reflexivity |].
  split; [reflexivity |]. split; [left |]; reflexivity.
Defined.
